(** * Backlight interface selection of drivers/acpi/video_detect.c

    A shallow embedding of the resolution engine of [video_detect.c]:
    the static globals [acpi_backlight_cmdline] and [acpi_backlight_dmi],
    the function-local statics of [__acpi_video_get_backlight_type], the
    command line parser, the DMI quirk table with its callbacks, the ACPI
    namespace walk, and the runtime override entry point
    [acpi_video_set_dmi_backlight_type].  The platform services the driver
    calls (DMI identity strings, PCI lookup, ACPI namespace, WMI, _OSI) are
    collected in one record [platform]; they are deterministic for a boot. *)

From Stdlib Require Import String List ZArith Bool Permutation Lia.
Import ListNotations.
Open Scope string_scope.

(** ** Data model *)

(** [enum acpi_backlight_type]. *)
Inductive acpi_backlight_type : Set :=
| acpi_backlight_undef
| acpi_backlight_none
| acpi_backlight_video
| acpi_backlight_vendor
| acpi_backlight_native
| acpi_backlight_nvidia_wmi_ec.

Definition acpi_backlight_type_eq_dec (a b : acpi_backlight_type) : {a = b} + {a <> b}.
Proof. decide equality. Defined.

Definition bt_eqb (a b : acpi_backlight_type) : bool :=
  if acpi_backlight_type_eq_dec a b then true else false.

Lemma bt_eqb_spec (a b : acpi_backlight_type) : bt_eqb a b = true <-> a = b.
Proof. unfold bt_eqb; destruct (acpi_backlight_type_eq_dec a b); split; congruence. Qed.

(** The DMI slots used by the quirk table. *)
Inductive dmi_field : Set :=
| DMI_SYS_VENDOR
| DMI_PRODUCT_NAME
| DMI_PRODUCT_VERSION
| DMI_BOARD_NAME
| DMI_BIOS_VERSION.

(** [struct dmi_strmatch]: [DMI_MATCH] is a substring match,
    [DMI_EXACT_MATCH] an exact one. *)
Record dmi_strmatch : Set := mk_strmatch {
  slot : dmi_field;
  substr : string;
  exact_match : bool
}.

Definition DMI_MATCH (f : dmi_field) (s : string) : dmi_strmatch :=
  mk_strmatch f s false.
Definition DMI_EXACT_MATCH (f : dmi_field) (s : string) : dmi_strmatch :=
  mk_strmatch f s true.

(** The callbacks that appear in [video_detect_dmi_table]. *)
Inductive dmi_callback : Set :=
| video_detect_force_vendor
| video_detect_force_video
| video_detect_force_native
| video_detect_portege_r100.

(** [struct dmi_system_id]. *)
Record dmi_system_id : Set := mk_dmi_system_id {
  callback : dmi_callback;
  matches : list dmi_strmatch
}.

(** One node of the ACPI namespace, as seen by [find_video]. *)
Record acpi_node : Set := mk_acpi_node {
  node_acpi_dev : bool;        (** [acpi_fetch_acpi_dev(handle) != NULL] *)
  node_video_hid : bool;       (** [!acpi_match_device_ids(acpi_dev, video_ids)] *)
  node_pci_dev : bool;         (** [acpi_get_pci_dev(handle) != NULL] *)
  node_video_caps : Z          (** [acpi_is_video_device(handle)] *)
}.

(** The services of the running system that the driver queries. *)
Record platform : Type := mk_platform {
  acpi_video_backlight_string : string;
  dmi_ident : dmi_field -> option string;
  pci_trident_2100 : bool;     (** [pci_get_device(PCI_VENDOR_ID_TRIDENT, 0x2100, NULL)] *)
  namespace : list acpi_node;  (** nodes in [acpi_walk_namespace] order *)
  config_x86 : bool;           (** [CONFIG_X86] *)
  wmi_brightness_source : option Z;
    (** [None]: [wmi_evaluate_method] failed; [Some r]: [args.ret = r] *)
  osi_is_win8 : bool;          (** [acpi_osi_is_win8()] *)
  dev_goog0004 : bool;         (** [acpi_dev_found("GOOG0004")] *)
  dev_goog000c : bool          (** [acpi_dev_found("GOOG000C")] *)
}.

(** The static state: the two file-scope globals and the function-local
    statics of [__acpi_video_get_backlight_type]. *)
Record state : Set := mk_state {
  acpi_backlight_cmdline : acpi_backlight_type;
  acpi_backlight_dmi : acpi_backlight_type;
  nvidia_wmi_ec_present : bool;
  native_available : bool;
  init_done : bool;
  video_caps : Z
}.

(** Zero-initialised statics at boot. *)
Definition initial_state : state :=
  mk_state acpi_backlight_undef acpi_backlight_undef false false false 0.

Definition set_cmdline (s : state) (t : acpi_backlight_type) : state :=
  mk_state t (acpi_backlight_dmi s) (nvidia_wmi_ec_present s)
           (native_available s) (init_done s) (video_caps s).
Definition set_dmi (s : state) (t : acpi_backlight_type) : state :=
  mk_state (acpi_backlight_cmdline s) t (nvidia_wmi_ec_present s)
           (native_available s) (init_done s) (video_caps s).
Definition set_wmi_ec (s : state) (b : bool) : state :=
  mk_state (acpi_backlight_cmdline s) (acpi_backlight_dmi s) b
           (native_available s) (init_done s) (video_caps s).
Definition set_native (s : state) (b : bool) : state :=
  mk_state (acpi_backlight_cmdline s) (acpi_backlight_dmi s)
           (nvidia_wmi_ec_present s) b (init_done s) (video_caps s).
Definition set_init_done (s : state) (b : bool) : state :=
  mk_state (acpi_backlight_cmdline s) (acpi_backlight_dmi s)
           (nvidia_wmi_ec_present s) (native_available s) b (video_caps s).
Definition set_video_caps (s : state) (c : Z) : state :=
  mk_state (acpi_backlight_cmdline s) (acpi_backlight_dmi s)
           (nvidia_wmi_ec_present s) (native_available s) (init_done s) c.

(** Constants of the ACPI headers. *)
Definition ACPI_VIDEO_BACKLIGHT : Z := 8.
Definition WMI_BRIGHTNESS_SOURCE_EC : Z := 2.

(** ** Command line *)

(** [strcmp(a, b) == 0] on NUL-terminated strings. *)
Definition streq (a b : string) : bool := String.eqb a b.

(** [acpi_video_parse_cmdline]: five independent [if]s. *)
Definition acpi_video_parse_cmdline (p : platform) (s : state) : state :=
  let str := acpi_video_backlight_string p in
  let s := if streq "vendor" str then set_cmdline s acpi_backlight_vendor else s in
  let s := if streq "video" str then set_cmdline s acpi_backlight_video else s in
  let s := if streq "native" str then set_cmdline s acpi_backlight_native else s in
  let s := if streq "nvidia_wmi_ec" str then set_cmdline s acpi_backlight_nvidia_wmi_ec else s in
  let s := if streq "none" str then set_cmdline s acpi_backlight_none else s in
  s.

(** ** DMI quirk table *)

(** [strstr(hay, needle) != NULL]. *)
Fixpoint strstr (hay needle : string) : bool :=
  if String.prefix needle hay then true
  else match hay with
       | EmptyString => false
       | String _ rest => strstr rest needle
       end.

(** One entry of [dmi_matches]: a missing identity string never matches. *)
Definition dmi_strmatch_ok (p : platform) (m : dmi_strmatch) : bool :=
  match dmi_ident p (slot m) with
  | None => false
  | Some v => if exact_match m then String.eqb v (substr m) else strstr v (substr m)
  end.

(** [dmi_matches] (drivers/firmware/dmi_scan.c): every listed field matches. *)
Definition dmi_matches (p : platform) (d : dmi_system_id) : bool :=
  forallb (dmi_strmatch_ok p) (matches d).

(** The callbacks of video_detect.c; each returns 0. *)
Definition run_callback (p : platform) (cb : dmi_callback) (s : state) : state * Z :=
  match cb with
  | video_detect_force_vendor => (set_dmi s acpi_backlight_vendor, 0%Z)
  | video_detect_force_video => (set_dmi s acpi_backlight_video, 0%Z)
  | video_detect_force_native => (set_dmi s acpi_backlight_native, 0%Z)
  | video_detect_portege_r100 =>
      ((if pci_trident_2100 p then set_dmi s acpi_backlight_vendor else s), 0%Z)
  end.

(** [dmi_check_system] (drivers/firmware/dmi_scan.c): walk the table, call
    the callback of every matching entry, and stop early only when a
    callback returns non-zero.  Returns the updated state and the number
    of matching entries. *)
Fixpoint dmi_check_system (p : platform) (list : list dmi_system_id) (s : state)
  : state * nat :=
  match list with
  | [] => (s, 0%nat)
  | d :: rest =>
      if dmi_matches p d then
        let '(s1, ret) := run_callback p (callback d) s in
        if negb (Z.eqb ret 0) then (s1, 1%nat)
        else let '(s2, n) := dmi_check_system p rest s1 in (s2, S n)
      else dmi_check_system p rest s
  end.

(** [video_detect_dmi_table], entry by entry in declaration order. *)
Definition video_detect_dmi_table : list dmi_system_id := [
  {| callback := video_detect_force_vendor;
     matches := [DMI_MATCH DMI_SYS_VENDOR "SAMSUNG ELECTRONICS CO., LTD.";
                 DMI_MATCH DMI_PRODUCT_NAME "X360";
                 DMI_MATCH DMI_BOARD_NAME "X360"] |};
  {| callback := video_detect_force_vendor;
     matches := [DMI_MATCH DMI_SYS_VENDOR "ASUSTeK Computer Inc.";
                 DMI_MATCH DMI_PRODUCT_NAME "UL30VT"] |};
  {| callback := video_detect_force_vendor;
     matches := [DMI_MATCH DMI_SYS_VENDOR "ASUSTeK Computer Inc.";
                 DMI_MATCH DMI_PRODUCT_NAME "UL30A"] |};
  {| callback := video_detect_force_vendor;
     matches := [DMI_MATCH DMI_SYS_VENDOR "GIGABYTE";
                 DMI_MATCH DMI_PRODUCT_NAME "GB-BXBT-2807"] |};
  {| callback := video_detect_force_vendor;
     matches := [DMI_MATCH DMI_SYS_VENDOR "Sony Corporation";
                 DMI_MATCH DMI_PRODUCT_NAME "VPCEH3U1E"] |};
  {| callback := video_detect_force_native;
     matches := [DMI_MATCH DMI_SYS_VENDOR "Dell Inc.";
                 DMI_MATCH DMI_PRODUCT_NAME "Vostro 15 3535"] |};
  {| callback := video_detect_portege_r100;
     matches := [DMI_MATCH DMI_SYS_VENDOR "TOSHIBA";
                 DMI_MATCH DMI_PRODUCT_NAME "Portable PC";
                 DMI_MATCH DMI_PRODUCT_VERSION "Version 1.0";
                 DMI_MATCH DMI_BOARD_NAME "Portable PC"] |};
  {| callback := video_detect_force_video;
     matches := [DMI_MATCH DMI_SYS_VENDOR "Apple Inc.";
                 DMI_MATCH DMI_PRODUCT_NAME "iMac14,1"] |};
  {| callback := video_detect_force_video;
     matches := [DMI_MATCH DMI_SYS_VENDOR "Apple Inc.";
                 DMI_MATCH DMI_PRODUCT_NAME "iMac14,2"] |};
  {| callback := video_detect_force_video;
     matches := [DMI_MATCH DMI_SYS_VENDOR "LENOVO";
                 DMI_MATCH DMI_PRODUCT_VERSION "ThinkPad W530"] |};
  {| callback := video_detect_force_video;
     matches := [DMI_MATCH DMI_SYS_VENDOR "LENOVO";
                 DMI_MATCH DMI_PRODUCT_VERSION "ThinkPad T420"] |};
  {| callback := video_detect_force_video;
     matches := [DMI_MATCH DMI_SYS_VENDOR "LENOVO";
                 DMI_MATCH DMI_PRODUCT_VERSION "ThinkPad T520"] |};
  {| callback := video_detect_force_video;
     matches := [DMI_MATCH DMI_SYS_VENDOR "LENOVO";
                 DMI_MATCH DMI_PRODUCT_VERSION "ThinkPad X201s"] |};
  {| callback := video_detect_force_video;
     matches := [DMI_MATCH DMI_SYS_VENDOR "LENOVO";
                 DMI_MATCH DMI_PRODUCT_VERSION "ThinkPad X201T"] |};
  {| callback := video_detect_force_video;
     matches := [DMI_MATCH DMI_SYS_VENDOR "Hewlett-Packard";
                 DMI_MATCH DMI_PRODUCT_NAME "HP ENVY 15 Notebook PC"] |};
  {| callback := video_detect_force_video;
     matches := [DMI_MATCH DMI_SYS_VENDOR "SAMSUNG ELECTRONICS CO., LTD.";
                 DMI_MATCH DMI_PRODUCT_NAME "870Z5E/880Z5E/680Z5E"] |};
  {| callback := video_detect_force_video;
     matches := [DMI_MATCH DMI_SYS_VENDOR "SAMSUNG ELECTRONICS CO., LTD.";
                 DMI_MATCH DMI_PRODUCT_NAME "370R4E/370R4V/370R5E/3570RE/370R5V"] |};
  {| callback := video_detect_force_video;
     matches := [DMI_MATCH DMI_SYS_VENDOR "SAMSUNG ELECTRONICS CO., LTD.";
                 DMI_MATCH DMI_PRODUCT_NAME "3570R/370R/470R/450R/510R/4450RV"] |};
  {| callback := video_detect_force_video;
     matches := [DMI_MATCH DMI_SYS_VENDOR "SAMSUNG ELECTRONICS CO., LTD.";
                 DMI_MATCH DMI_PRODUCT_NAME "670Z5E"] |};
  {| callback := video_detect_force_video;
     matches := [DMI_MATCH DMI_SYS_VENDOR "SAMSUNG ELECTRONICS CO., LTD.";
                 DMI_MATCH DMI_PRODUCT_NAME "730U3E/740U3E"] |};
  {| callback := video_detect_force_video;
     matches := [DMI_MATCH DMI_SYS_VENDOR "SAMSUNG ELECTRONICS CO., LTD.";
                 DMI_MATCH DMI_PRODUCT_NAME "900X3C/900X3D/900X3E/900X4C/900X4D"] |};
  {| callback := video_detect_force_video;
     matches := [DMI_MATCH DMI_SYS_VENDOR "Dell Inc.";
                 DMI_MATCH DMI_PRODUCT_NAME "XPS L421X"] |};
  {| callback := video_detect_force_video;
     matches := [DMI_MATCH DMI_SYS_VENDOR "Dell Inc.";
                 DMI_MATCH DMI_PRODUCT_NAME "XPS L521X"] |};
  {| callback := video_detect_force_video;
     matches := [DMI_MATCH DMI_SYS_VENDOR "SAMSUNG ELECTRONICS CO., LTD.";
                 DMI_MATCH DMI_PRODUCT_NAME "530U4E/540U4E"] |};
  {| callback := video_detect_force_video;
     matches := [DMI_MATCH DMI_SYS_VENDOR "Hewlett-Packard";
                 DMI_MATCH DMI_PRODUCT_NAME "HP 635 Notebook PC"] |};
  {| callback := video_detect_force_native;
     matches := [DMI_MATCH DMI_SYS_VENDOR "LENOVO";
                 DMI_MATCH DMI_BOARD_NAME "Lenovo IdeaPad S405"] |};
  {| callback := video_detect_force_native;
     matches := [DMI_MATCH DMI_SYS_VENDOR "LENOVO";
                 DMI_MATCH DMI_PRODUCT_VERSION "IdeaPad Z470"] |};
  {| callback := video_detect_force_native;
     matches := [DMI_MATCH DMI_SYS_VENDOR "LENOVO";
                 DMI_MATCH DMI_PRODUCT_NAME "102434U"] |};
  {| callback := video_detect_force_native;
     matches := [DMI_MATCH DMI_SYS_VENDOR "LENOVO";
                 DMI_MATCH DMI_PRODUCT_NAME "81FS"] |};
  {| callback := video_detect_force_native;
     matches := [DMI_MATCH DMI_SYS_VENDOR "LENOVO";
                 DMI_MATCH DMI_PRODUCT_NAME "82BK"] |};
  {| callback := video_detect_force_native;
     matches := [DMI_MATCH DMI_SYS_VENDOR "LENOVO";
                 DMI_MATCH DMI_PRODUCT_NAME "3371"] |};
  {| callback := video_detect_force_native;
     matches := [DMI_MATCH DMI_SYS_VENDOR "Apple Inc.";
                 DMI_MATCH DMI_PRODUCT_NAME "iMac11,3"] |};
  {| callback := video_detect_force_native;
     matches := [DMI_MATCH DMI_SYS_VENDOR "Apple Inc.";
                 DMI_MATCH DMI_PRODUCT_NAME "iMac12,1"] |};
  {| callback := video_detect_force_native;
     matches := [DMI_MATCH DMI_SYS_VENDOR "Apple Inc.";
                 DMI_MATCH DMI_PRODUCT_NAME "iMac12,2"] |};
  {| callback := video_detect_force_native;
     matches := [DMI_MATCH DMI_SYS_VENDOR "Apple Inc.";
                 DMI_MATCH DMI_PRODUCT_NAME "MacBookPro12,1"] |};
  {| callback := video_detect_force_native;
     matches := [DMI_MATCH DMI_SYS_VENDOR "Dell Inc.";
                 DMI_MATCH DMI_PRODUCT_NAME "Inspiron N4010"] |};
  {| callback := video_detect_force_native;
     matches := [DMI_MATCH DMI_SYS_VENDOR "Dell Inc.";
                 DMI_MATCH DMI_PRODUCT_NAME "Vostro V131"] |};
  {| callback := video_detect_force_native;
     matches := [DMI_MATCH DMI_SYS_VENDOR "Dell Inc.";
                 DMI_MATCH DMI_PRODUCT_NAME "Dell System XPS L702X"] |};
  {| callback := video_detect_force_native;
     matches := [DMI_MATCH DMI_SYS_VENDOR "Dell Inc.";
                 DMI_MATCH DMI_PRODUCT_NAME "Precision 7510"] |};
  {| callback := video_detect_force_native;
     matches := [DMI_MATCH DMI_SYS_VENDOR "Dell Inc.";
                 DMI_MATCH DMI_PRODUCT_NAME "Studio 1569"] |};
  {| callback := video_detect_force_native;
     matches := [DMI_MATCH DMI_SYS_VENDOR "Acer";
                 DMI_MATCH DMI_PRODUCT_NAME "Aspire 3830TG"] |};
  {| callback := video_detect_force_native;
     matches := [DMI_MATCH DMI_SYS_VENDOR "Acer";
                 DMI_MATCH DMI_PRODUCT_NAME "Aspire 5738";
                 DMI_MATCH DMI_BOARD_NAME "JV50"] |};
  {| callback := video_detect_force_native;
     matches := [DMI_MATCH DMI_SYS_VENDOR "Acer";
                 DMI_MATCH DMI_PRODUCT_NAME "TravelMate 5735Z";
                 DMI_MATCH DMI_BOARD_NAME "BA51_MV"] |};
  {| callback := video_detect_force_native;
     matches := [DMI_MATCH DMI_SYS_VENDOR "ASUSTeK COMPUTER INC.";
                 DMI_MATCH DMI_PRODUCT_NAME "GA401"] |};
  {| callback := video_detect_force_native;
     matches := [DMI_MATCH DMI_SYS_VENDOR "ASUSTeK COMPUTER INC.";
                 DMI_MATCH DMI_PRODUCT_NAME "GA502"] |};
  {| callback := video_detect_force_native;
     matches := [DMI_MATCH DMI_SYS_VENDOR "ASUSTeK COMPUTER INC.";
                 DMI_MATCH DMI_PRODUCT_NAME "GA503"] |};
  {| callback := video_detect_force_native;
     matches := [DMI_MATCH DMI_BOARD_NAME "NL5xRU"] |};
  {| callback := video_detect_force_native;
     matches := [DMI_MATCH DMI_SYS_VENDOR "TUXEDO";
                 DMI_MATCH DMI_BOARD_NAME "AURA1501"] |};
  {| callback := video_detect_force_native;
     matches := [DMI_MATCH DMI_SYS_VENDOR "TUXEDO";
                 DMI_MATCH DMI_BOARD_NAME "EDUBOOK1502"] |};
  {| callback := video_detect_force_native;
     matches := [DMI_MATCH DMI_BOARD_NAME "NL5xNU"] |};
  {| callback := video_detect_force_native;
     matches := [DMI_MATCH DMI_BOARD_NAME "PF5PU1G"] |};
  {| callback := video_detect_force_native;
     matches := [DMI_MATCH DMI_BOARD_NAME "PF4NU1F"] |};
  {| callback := video_detect_force_native;
     matches := [DMI_MATCH DMI_SYS_VENDOR "TUXEDO";
                 DMI_MATCH DMI_BOARD_NAME "PULSE1401"] |};
  {| callback := video_detect_force_native;
     matches := [DMI_MATCH DMI_BOARD_NAME "PF5NU1G"] |};
  {| callback := video_detect_force_native;
     matches := [DMI_MATCH DMI_SYS_VENDOR "TUXEDO";
                 DMI_MATCH DMI_BOARD_NAME "PULSE1501"] |};
  {| callback := video_detect_force_native;
     matches := [DMI_MATCH DMI_BOARD_NAME "PF5LUXG"] |};
  {| callback := video_detect_force_vendor;
     matches := [DMI_EXACT_MATCH DMI_SYS_VENDOR "Intel Corporation";
                 DMI_EXACT_MATCH DMI_PRODUCT_NAME "CHERRYVIEW D1 PLATFORM";
                 DMI_EXACT_MATCH DMI_PRODUCT_VERSION "YETI-11"] |};
  {| callback := video_detect_force_vendor;
     matches := [DMI_MATCH DMI_SYS_VENDOR "Intel Corp.";
                 DMI_MATCH DMI_PRODUCT_NAME "VALLEYVIEW C0 PLATFORM";
                 DMI_MATCH DMI_BOARD_NAME "BYT-T FFD8";
                 DMI_MATCH DMI_BIOS_VERSION "BLADE_21"] |};
  {| callback := video_detect_force_vendor;
     matches := [DMI_MATCH DMI_SYS_VENDOR "Intel Corporation";
                 DMI_MATCH DMI_PRODUCT_NAME "CHERRYVIEW D1 PLATFORM";
                 DMI_MATCH DMI_PRODUCT_VERSION "Blade3-10A-001"] |};
  {| callback := video_detect_force_vendor;
     matches := [DMI_MATCH DMI_SYS_VENDOR "Xiaomi Inc";
                 DMI_MATCH DMI_PRODUCT_NAME "Mipad2"] |}
].

(** ** Probes *)

(** [find_video] for one namespace node: OR the node's capabilities into
    [*cap] when it is a video device backed by a PCI device. *)
Definition find_video (n : acpi_node) (cap : Z) : Z :=
  if node_acpi_dev n && node_video_hid n then
    if negb (node_pci_dev n) then cap
    else Z.lor cap (node_video_caps n)
  else cap.

(** [acpi_walk_namespace(..., find_video, NULL, &video_caps, NULL)]:
    [find_video] always returns [AE_OK], so every node is visited. *)
Definition acpi_walk_namespace (ns : list acpi_node) (cap : Z) : Z :=
  fold_left (fun c n => find_video n c) ns cap.

(** [nvidia_wmi_ec_supported], both configurations. *)
Definition nvidia_wmi_ec_supported (p : platform) : bool :=
  if config_x86 p then
    match wmi_brightness_source p with
    | None => false
    | Some ret => Z.eqb ret WMI_BRIGHTNESS_SOURCE_EC
    end
  else false.

Definition google_cros_ec_present (p : platform) : bool :=
  dev_goog0004 p || dev_goog000c p.

Definition prefer_native_over_acpi_video (p : platform) : bool :=
  osi_is_win8 p || google_cros_ec_present p.

(** ** The query *)

(** The locked region of [__acpi_video_get_backlight_type]: the one-time
    initialisation block and the [native_available] update. *)
Definition init_block_with (table : list dmi_system_id) (p : platform) (s : state) : state :=
  let s := acpi_video_parse_cmdline p s in
  let s := fst (dmi_check_system p table s) in
  let s := set_video_caps s (acpi_walk_namespace (namespace p) (video_caps s)) in
  let s := set_wmi_ec s (nvidia_wmi_ec_supported p) in
  set_init_done s true.

Definition init_block (p : platform) (s : state) : state :=
  init_block_with video_detect_dmi_table p s.

Definition locked_region (p : platform) (native : bool) (s : state) : state :=
  let s := if negb (init_done s) then init_block p s else s in
  if native then set_native s true else s.

(** The lock-free decision, evaluated on the state left by the locked
    region.  Returns the result and the final value of [*auto_detect]. *)
Definition decide_backlight (p : platform) (s : state)
  : acpi_backlight_type * bool :=
  if negb (bt_eqb (acpi_backlight_cmdline s) acpi_backlight_undef)
  then (acpi_backlight_cmdline s, false)
  else if negb (bt_eqb (acpi_backlight_dmi s) acpi_backlight_undef)
  then (acpi_backlight_dmi s, false)
  else if nvidia_wmi_ec_present s
  then (acpi_backlight_nvidia_wmi_ec, false)
  else if negb (Z.eqb (Z.land (video_caps s) ACPI_VIDEO_BACKLIGHT) 0)
          && negb (native_available s && prefer_native_over_acpi_video p)
  then (acpi_backlight_video, true)
  else if native_available s
  then (acpi_backlight_native, true)
  else if osi_is_win8 p
  then (acpi_backlight_none, true)
  else (acpi_backlight_vendor, true).

(** [__acpi_video_get_backlight_type(native, auto_detect)].  The
    out-parameter is modelled by [want_auto] (the pointer is non-NULL) and
    the returned [option bool] (the value written to it, if any). *)
Definition acpi_video_get_backlight_type_full (p : platform) (native want_auto : bool)
  (s : state) : state * (acpi_backlight_type * option bool) :=
  let s' := locked_region p native s in
  let '(r, auto) := decide_backlight p s' in
  (s', (r, if want_auto then Some auto else None)).

(** Modelled from the spec: [acpi_video_get_backlight_type], the wrapper of
    the ACPI video header (not under src/), "re-runs the full query"; it is
    the query with no native hint and no auto-detect out-parameter. *)
Definition acpi_video_get_backlight_type (p : platform) (s : state)
  : state * acpi_backlight_type :=
  let '(s', (r, _)) := acpi_video_get_backlight_type_full p false false s in (s', r).

(** [acpi_video_set_dmi_backlight_type(type)]: the boolean says whether
    [acpi_video_unregister_backlight()] was called. *)
Definition acpi_video_set_dmi_backlight_type (p : platform) (type : acpi_backlight_type)
  (s : state) : state * bool :=
  let s := set_dmi s type in
  let '(s', r) := acpi_video_get_backlight_type p s in
  (s', negb (bt_eqb r acpi_backlight_video)).

(** ** Call sequences *)

(** The two public entry points, as steps on the static state. *)
Inductive call : Set :=
| Query (native want_auto : bool)
| SetDmi (type : acpi_backlight_type).

Definition step (p : platform) (c : call) (s : state) : state :=
  match c with
  | Query native want_auto => fst (acpi_video_get_backlight_type_full p native want_auto s)
  | SetDmi type => fst (acpi_video_set_dmi_backlight_type p type s)
  end.

Fixpoint run (p : platform) (cs : list call) (s : state) : state :=
  match cs with
  | [] => s
  | c :: rest => run p rest (step p c s)
  end.

Definition call_native_hint (c : call) : bool :=
  match c with Query native _ => native | SetDmi _ => false end.

(** Number of calls in [cs] that execute the initialisation block. *)
Fixpoint init_runs (p : platform) (cs : list call) (s : state) : nat :=
  match cs with
  | [] => 0
  | c :: rest => (if init_done s then 0 else 1) + init_runs p rest (step p c s)
  end.

(** The values the initialisation block caches. *)
Definition cached (s : state) : acpi_backlight_type * acpi_backlight_type * Z * bool :=
  (acpi_backlight_cmdline s, acpi_backlight_dmi s, video_caps s, nvidia_wmi_ec_present s).

(** ** Reference definitions written from the spec *)

(** The seven-step precedence policy, in the spec's words. *)
Definition spec_precedence (cmdlineOverride dmiOverride : acpi_backlight_type)
  (vendorEcPresent videoCapable nativeAvailable preferNativeOverVideo modern : bool)
  : acpi_backlight_type :=
  match cmdlineOverride with
  | acpi_backlight_undef =>
      match dmiOverride with
      | acpi_backlight_undef =>
          if vendorEcPresent then acpi_backlight_nvidia_wmi_ec
          else if videoCapable && negb (nativeAvailable && preferNativeOverVideo)
          then acpi_backlight_video
          else if nativeAvailable then acpi_backlight_native
          else if modern then acpi_backlight_none
          else acpi_backlight_vendor
      | d => d
      end
  | c => c
  end.

(** The recognised command line tokens, in the spec's words. *)
Definition spec_cmdline_tokens : list (string * acpi_backlight_type) :=
  [("vendor", acpi_backlight_vendor); ("video", acpi_backlight_video);
   ("native", acpi_backlight_native); ("nvidia_wmi_ec", acpi_backlight_nvidia_wmi_ec);
   ("none", acpi_backlight_none)].

Definition spec_cmdline_token (str : string) : option acpi_backlight_type :=
  option_map snd (find (fun kv => String.eqb (fst kv) str) spec_cmdline_tokens).

(** What a quirk rule commits when it matches: its callback's write to
    [acpi_backlight_dmi], if any. *)
Definition rule_action (p : platform) (d : dmi_system_id) : option acpi_backlight_type :=
  match callback d with
  | video_detect_force_vendor => Some acpi_backlight_vendor
  | video_detect_force_video => Some acpi_backlight_video
  | video_detect_force_native => Some acpi_backlight_native
  | video_detect_portege_r100 =>
      if pci_trident_2100 p then Some acpi_backlight_vendor else None
  end.

Definition rule_commits (p : platform) (d : dmi_system_id) : bool :=
  match rule_action p d with Some _ => true | None => false end.

(** The spec's QuirkDatabase.resolve: the first committed action, or
    [Undefined]. *)
Fixpoint spec_quirk_resolve (p : platform) (rules : list dmi_system_id) : acpi_backlight_type :=
  match rules with
  | [] => acpi_backlight_undef
  | d :: rest =>
      match (if dmi_matches p d then rule_action p d else None) with
      | Some t => t
      | None => spec_quirk_resolve p rest
      end
  end.

(** ** Helper lemmas *)

(** The quirk table is large; keep [simpl] from unfolding it. *)
#[global] Opaque video_detect_dmi_table.

Lemma dmi_check_system_fields (p : platform) (l : list dmi_system_id) (s : state) :
  let s' := fst (dmi_check_system p l s) in
  acpi_backlight_cmdline s' = acpi_backlight_cmdline s /\
  nvidia_wmi_ec_present s' = nvidia_wmi_ec_present s /\
  native_available s' = native_available s /\
  init_done s' = init_done s /\
  video_caps s' = video_caps s.
Proof.
  revert s; induction l as [|d l IH]; intros s; simpl; [tauto|].
  destruct (dmi_matches p d).
  - destruct (callback d); simpl;
      try (destruct (pci_trident_2100 p));
      match goal with
      | |- context [dmi_check_system p l ?s1] =>
          specialize (IH s1); destruct (dmi_check_system p l s1) as [s2 n]; simpl in *
      end; tauto.
  - apply IH.
Qed.

Lemma parse_cmdline_fields (p : platform) (s : state) :
  let s' := acpi_video_parse_cmdline p s in
  acpi_backlight_dmi s' = acpi_backlight_dmi s /\
  nvidia_wmi_ec_present s' = nvidia_wmi_ec_present s /\
  native_available s' = native_available s /\
  init_done s' = init_done s /\
  video_caps s' = video_caps s.
Proof.
  unfold acpi_video_parse_cmdline.
  destruct (streq "vendor" _), (streq "video" _), (streq "native" _),
    (streq "nvidia_wmi_ec" _), (streq "none" _); simpl; tauto.
Qed.

Lemma init_block_with_native (table : list dmi_system_id) (p : platform) (s : state) :
  native_available (init_block_with table p s) = native_available s.
Proof.
  unfold init_block_with.
  destruct (parse_cmdline_fields p s) as (_ & _ & H1 & _).
  destruct (dmi_check_system_fields p table (acpi_video_parse_cmdline p s)) as (_ & _ & H2 & _).
  cbn [set_init_done set_wmi_ec set_video_caps native_available].
  rewrite H2; exact H1.
Qed.

Lemma init_block_native (p : platform) (s : state) :
  native_available (init_block p s) = native_available s.
Proof. apply init_block_with_native. Qed.

Lemma init_block_init_done (p : platform) (s : state) :
  init_done (init_block p s) = true.
Proof. unfold init_block, init_block_with; reflexivity. Qed.

Lemma locked_region_init_done (p : platform) (native : bool) (s : state) :
  init_done (locked_region p native s) = true.
Proof.
  unfold locked_region.
  destruct (init_done s) eqn:E; destruct native; cbn [negb];
    first [reflexivity | exact E].
Qed.

Lemma locked_region_native (p : platform) (native : bool) (s : state) :
  native_available (locked_region p native s) = native_available s || native.
Proof.
  unfold locked_region.
  destruct (init_done s); destruct native; cbn [negb];
    rewrite ?init_block_native; cbn [set_native native_available];
    rewrite ?orb_true_r, ?orb_false_r; first [reflexivity | rewrite init_block_native; reflexivity].
Qed.

Lemma query_state (p : platform) (native want_auto : bool) (s : state) :
  fst (acpi_video_get_backlight_type_full p native want_auto s) = locked_region p native s.
Proof.
  unfold acpi_video_get_backlight_type_full.
  destruct (decide_backlight p (locked_region p native s)); reflexivity.
Qed.

Lemma query_result (p : platform) (native want_auto : bool) (s : state) :
  fst (snd (acpi_video_get_backlight_type_full p native want_auto s))
  = fst (decide_backlight p (locked_region p native s)).
Proof.
  unfold acpi_video_get_backlight_type_full.
  destruct (decide_backlight p (locked_region p native s)); reflexivity.
Qed.

Lemma set_dmi_type_state (p : platform) (t : acpi_backlight_type) (s : state) :
  fst (acpi_video_set_dmi_backlight_type p t s) = locked_region p false (set_dmi s t).
Proof.
  unfold acpi_video_set_dmi_backlight_type, acpi_video_get_backlight_type,
    acpi_video_get_backlight_type_full.
  destruct (decide_backlight p (locked_region p false (set_dmi s t))); reflexivity.
Qed.

Lemma init_done_after_step (p : platform) (c : call) (s : state) :
  init_done (step p c s) = true.
Proof.
  destruct c as [n w | t]; unfold step;
    rewrite ?query_state, ?set_dmi_type_state; apply locked_region_init_done.
Qed.

Lemma locked_region_done (p : platform) (native : bool) (s : state) :
  init_done s = true ->
  locked_region p native s = if native then set_native s true else s.
Proof. intros H; unfold locked_region; rewrite H; reflexivity. Qed.

Lemma locked_region_cached (p : platform) (native : bool) (s : state) :
  cached (locked_region p native s) = cached (if init_done s then s else init_block p s).
Proof.
  unfold locked_region.
  destruct (init_done s); cbn [negb];
    [| generalize (init_block p s); intro t]; destruct native; reflexivity.
Qed.

Lemma locked_region_idem (p : platform) (n1 n2 : bool) (s : state) :
  implb n2 n1 = true ->
  locked_region p n2 (locked_region p n1 s) = locked_region p n1 s.
Proof.
  intros H.
  assert (Hd : init_done (locked_region p n1 s) = true) by apply locked_region_init_done.
  unfold locked_region at 1; rewrite Hd; cbn [negb].
  destruct n2; [| reflexivity].
  destruct n1; [| discriminate H].
  unfold locked_region.
  generalize (if negb (init_done s) then init_block p s else s); intro t.
  reflexivity.
Qed.

Lemma decide_backlight_range (p : platform) (t : state) :
  In (fst (decide_backlight p t))
     [acpi_backlight_vendor; acpi_backlight_video; acpi_backlight_native;
      acpi_backlight_nvidia_wmi_ec; acpi_backlight_none].
Proof.
  unfold decide_backlight.
  destruct (acpi_backlight_cmdline t) eqn:Ec; cbn;
    [ destruct (acpi_backlight_dmi t) eqn:Ed; cbn | tauto .. ];
    [ | tauto .. ].
  destruct (nvidia_wmi_ec_present t); [cbn; tauto|].
  destruct (_ && _); [cbn; tauto|].
  destruct (native_available t); [cbn; tauto|].
  destruct (osi_is_win8 p); cbn; tauto.
Qed.

Lemma query_precedence_done (p : platform) (native want_auto : bool) (s : state) :
  init_done s = true ->
  fst (snd (acpi_video_get_backlight_type_full p native want_auto s)) =
  spec_precedence (acpi_backlight_cmdline s) (acpi_backlight_dmi s)
    (nvidia_wmi_ec_present s)
    (negb (Z.eqb (Z.land (video_caps s) ACPI_VIDEO_BACKLIGHT) 0))
    (native_available s || native) (prefer_native_over_acpi_video p) (osi_is_win8 p).
Proof.
  intros Hinit.
  rewrite query_result, (locked_region_done p native s Hinit).
  destruct native;
    [ change (native_available s || true) with (orb (native_available s) true);
      rewrite orb_true_r | rewrite orb_false_r ];
    unfold decide_backlight, spec_precedence; cbn [set_native acpi_backlight_cmdline
      acpi_backlight_dmi nvidia_wmi_ec_present video_caps native_available];
    destruct (acpi_backlight_cmdline s), (acpi_backlight_dmi s);
    destruct (nvidia_wmi_ec_present s), (Z.land (video_caps s) ACPI_VIDEO_BACKLIGHT =? 0)%Z,
      (native_available s), (prefer_native_over_acpi_video p), (osi_is_win8 p);
    reflexivity.
Qed.

Lemma run_callback_action (p : platform) (d : dmi_system_id) (s : state) :
  run_callback p (callback d) s =
  (match rule_action p d with Some t => set_dmi s t | None => s end, 0%Z).
Proof.
  unfold rule_action, run_callback; destruct (callback d); try reflexivity.
  destruct (pci_trident_2100 p); reflexivity.
Qed.

(** With callbacks that all return 0, [dmi_check_system] visits every
    entry: the DMI override is the action of the last committing entry,
    and the count is the number of matching entries. *)
Lemma dmi_check_system_fold (p : platform) (l : list dmi_system_id) (s : state) :
  dmi_check_system p l s =
  (set_dmi s (fold_left (fun acc d =>
                if dmi_matches p d then
                  match rule_action p d with Some t => t | None => acc end
                else acc) l (acpi_backlight_dmi s)),
   length (filter (dmi_matches p) l)).
Proof.
  revert s; induction l as [|d l IH]; intros s; cbn [dmi_check_system fold_left filter].
  - destruct s; reflexivity.
  - destruct (dmi_matches p d).
    + rewrite run_callback_action; cbn [Z.eqb negb].
      rewrite IH; cbn [length].
      destruct (rule_action p d); reflexivity.
    + apply IH.
Qed.

Lemma fold_last_commit (p : platform) (post : list dmi_system_id) (t : acpi_backlight_type) :
  forallb (fun d' => negb (dmi_matches p d') || negb (rule_commits p d')) post = true ->
  fold_left (fun acc d =>
               if dmi_matches p d then
                 match rule_action p d with Some t => t | None => acc end
               else acc) post t = t.
Proof.
  revert t; induction post as [|d post IH]; intros t H; cbn [fold_left]; [reflexivity|].
  cbn [forallb] in H; apply andb_true_iff in H as [Hd Hpost].
  destruct (dmi_matches p d); [| now apply IH].
  unfold rule_commits in Hd.
  destruct (rule_action p d); [discriminate Hd | now apply IH].
Qed.

Lemma query_dmi_done (p : platform) (native want_auto : bool) (s : state) :
  init_done s = true ->
  acpi_backlight_dmi (fst (acpi_video_get_backlight_type_full p native want_auto s))
    = acpi_backlight_dmi s /\
  acpi_backlight_cmdline (fst (acpi_video_get_backlight_type_full p native want_auto s))
    = acpi_backlight_cmdline s /\
  init_done (fst (acpi_video_get_backlight_type_full p native want_auto s)) = true.
Proof.
  intros H; rewrite query_state, (locked_region_done p native s H).
  destruct native; cbn; auto.
Qed.

Definition is_query (c : call) : bool :=
  match c with Query _ _ => true | SetDmi _ => false end.

Lemma queries_keep_dmi (p : platform) (cs : list call) (s : state) :
  init_done s = true -> forallb is_query cs = true ->
  acpi_backlight_dmi (run p cs s) = acpi_backlight_dmi s /\
  acpi_backlight_cmdline (run p cs s) = acpi_backlight_cmdline s /\
  init_done (run p cs s) = true.
Proof.
  revert s; induction cs as [|c cs IH]; intros s Hd Hq; cbn [run]; [auto|].
  cbn [forallb] in Hq; apply andb_true_iff in Hq as [Hc Hq].
  destruct c as [n w | t]; [| discriminate Hc].
  unfold step.
  destruct (query_dmi_done p n w s Hd) as (E1 & E2 & E3).
  destruct (IH _ E3 Hq) as (F1 & F2 & F3).
  rewrite F1, F2, E1, E2; auto.
Qed.

(** ** C1 to C10 *)

(** C1: on an initialised state, the query returns exactly the spec's
    seven-step precedence function of the cached values (with the native
    flag as updated by this call); in particular, with no override, no
    vendor EC, a video-capable platform, native available and native
    preferred, the result is Native. *)
Theorem get_backlight_type_precedence (p : platform) (native want_auto : bool) (s : state)
  (Hinit : init_done s = true) :
  fst (snd (acpi_video_get_backlight_type_full p native want_auto s)) =
  spec_precedence (acpi_backlight_cmdline s) (acpi_backlight_dmi s)
    (nvidia_wmi_ec_present s)
    (negb (Z.eqb (Z.land (video_caps s) ACPI_VIDEO_BACKLIGHT) 0))
    (native_available s || native) (prefer_native_over_acpi_video p) (osi_is_win8 p)
  /\
  (acpi_backlight_cmdline s = acpi_backlight_undef ->
   acpi_backlight_dmi s = acpi_backlight_undef ->
   nvidia_wmi_ec_present s = false ->
   negb (Z.eqb (Z.land (video_caps s) ACPI_VIDEO_BACKLIGHT) 0) = true ->
   native_available s || native = true ->
   prefer_native_over_acpi_video p = true ->
   fst (snd (acpi_video_get_backlight_type_full p native want_auto s)) = acpi_backlight_native).
Proof.
  pose proof (query_precedence_done p native want_auto s Hinit) as Heq.
  split; [exact Heq|].
  intros Hc Hd He Hv Hn Hp.
  rewrite Heq, Hc, Hd, He, Hv, Hn, Hp; reflexivity.
Qed.

(** C2: for every state and arguments the query returns one of the five
    interface types, never [Undefined]. *)
Theorem get_backlight_type_total (p : platform) (native want_auto : bool) (s : state) :
  let r := fst (snd (acpi_video_get_backlight_type_full p native want_auto s)) in
  r <> acpi_backlight_undef /\
  In r [acpi_backlight_vendor; acpi_backlight_video; acpi_backlight_native;
        acpi_backlight_nvidia_wmi_ec; acpi_backlight_none].
Proof.
  cbv zeta; rewrite query_result.
  pose proof (decide_backlight_range p (locked_region p native s)) as H.
  split; [| exact H].
  intros E; rewrite E in H; cbn in H; intuition discriminate.
Qed.

(** A Windows-8 era platform without quirk match, without command line
    token and without WMI, used to exercise the theorems. *)
Definition no_dmi (f : dmi_field) : option string := None.

Definition win8_platform : platform :=
  mk_platform "" no_dmi false [mk_acpi_node true true true 15] true None true false false.

Definition booted_state : state :=
  mk_state acpi_backlight_undef acpi_backlight_undef false false true 15.

Lemma get_backlight_type_precedence_witness :
  init_done booted_state = true /\
  fst (snd (acpi_video_get_backlight_type_full win8_platform true true booted_state)) =
  spec_precedence acpi_backlight_undef acpi_backlight_undef false true true true true.
Proof.
  split; [reflexivity|].
  apply (get_backlight_type_precedence win8_platform true true booted_state); reflexivity.
Defined.

(** C6: along any sequence of calls, [native_available] ends up as its
    initial value OR-ed with the native hints of the query calls: it only
    goes from false to true, and a call without the hint never clears it. *)
Theorem native_available_monotone (p : platform) (cs : list call) (s : state) :
  native_available (run p cs s) = native_available s || existsb call_native_hint cs.
Proof.
  revert s; induction cs as [|c cs IH]; intros s; cbn [run existsb].
  - now rewrite orb_false_r.
  - rewrite IH; unfold step; destruct c as [n w | t]; cbn [call_native_hint].
    + rewrite query_state, locked_region_native, orb_assoc; reflexivity.
    + rewrite set_dmi_type_state, locked_region_native, orb_false_r; reflexivity.
Qed.

(** C7: a query runs the initialisation block exactly when [init_done] is
    false, caching its results; afterwards [init_done] is true and later
    queries keep the cached command line, DMI, capability and vendor-EC
    values; along any sequence of calls the block runs at most once, and
    exactly once from an uninitialised state when there is a call. *)
Theorem init_block_runs_once (p : platform) (native want_auto : bool) (cs : list call)
  (s : state) :
  cached (fst (acpi_video_get_backlight_type_full p native want_auto s))
    = cached (if init_done s then s else init_block p s) /\
  init_done (fst (acpi_video_get_backlight_type_full p native want_auto s)) = true /\
  init_runs p cs s = (if init_done s then 0 else match cs with [] => 0 | _ => 1 end).
Proof.
  split; [rewrite query_state; apply locked_region_cached|].
  split; [rewrite query_state; apply locked_region_init_done|].
  assert (Hdone : forall cs s, init_done s = true -> init_runs p cs s = 0).
  { induction cs0 as [|c cs0 IH]; intros s0 H; cbn [init_runs]; [reflexivity|].
    rewrite H, IH; [reflexivity | apply init_done_after_step]. }
  destruct (init_done s) eqn:E; [now apply Hdone|].
  destruct cs as [|c cs]; cbn [init_runs]; [reflexivity|].
  rewrite E, Hdone; [reflexivity | apply init_done_after_step].
Qed.

(** C8: two consecutive queries, the second without a native hint the
    first did not already give, return the same result, whether or not
    either call passes the auto-detect out-parameter; when both pass it
    alike, they also write the same auto-detect value. *)
Theorem get_backlight_type_idempotent (p : platform) (n1 n2 w1 w2 : bool) (s : state)
  (Hhint : implb n2 n1 = true) :
  fst (snd (acpi_video_get_backlight_type_full p n2 w2
              (fst (acpi_video_get_backlight_type_full p n1 w1 s))))
  = fst (snd (acpi_video_get_backlight_type_full p n1 w1 s)) /\
  (w1 = w2 ->
   snd (acpi_video_get_backlight_type_full p n2 w2
          (fst (acpi_video_get_backlight_type_full p n1 w1 s)))
   = snd (acpi_video_get_backlight_type_full p n1 w1 s)).
Proof.
  rewrite query_state; split.
  - rewrite !query_result, (locked_region_idem p n1 n2 s Hhint); reflexivity.
  - intros <-; unfold acpi_video_get_backlight_type_full at 1.
    rewrite (locked_region_idem p n1 n2 s Hhint).
    unfold acpi_video_get_backlight_type_full; reflexivity.
Qed.

Lemma get_backlight_type_idempotent_witness :
  implb false true = true /\
  fst (snd (acpi_video_get_backlight_type_full win8_platform false false
              (fst (acpi_video_get_backlight_type_full win8_platform true true initial_state))))
  = fst (snd (acpi_video_get_backlight_type_full win8_platform true true initial_state)) /\
  (true = false ->
   snd (acpi_video_get_backlight_type_full win8_platform false false
          (fst (acpi_video_get_backlight_type_full win8_platform true true initial_state)))
   = snd (acpi_video_get_backlight_type_full win8_platform true true initial_state)).
Proof.
  split; [reflexivity|].
  apply (get_backlight_type_idempotent win8_platform true false true false initial_state).
  reflexivity.
Defined.

(** C9: the command line parser maps exactly the five tokens of the spec
    to their interface types and leaves the override untouched for every
    other string, so from the boot value it stays [Undefined]; no other
    field changes. *)
Theorem parse_cmdline_tokens (p : platform) (s : state) :
  acpi_backlight_cmdline (acpi_video_parse_cmdline p s) =
    match spec_cmdline_token (acpi_video_backlight_string p) with
    | Some t => t
    | None => acpi_backlight_cmdline s
    end /\
  acpi_backlight_cmdline (acpi_video_parse_cmdline p initial_state) =
    match spec_cmdline_token (acpi_video_backlight_string p) with
    | Some t => t
    | None => acpi_backlight_undef
    end.
Proof.
  assert (G : forall s, acpi_backlight_cmdline (acpi_video_parse_cmdline p s) =
    match spec_cmdline_token (acpi_video_backlight_string p) with
    | Some t => t
    | None => acpi_backlight_cmdline s
    end).
  { intros s0; unfold acpi_video_parse_cmdline, spec_cmdline_token, streq.
    generalize (acpi_video_backlight_string p); intros x.
      destruct (String.eqb_spec "vendor" x) as [<-|n1]; [reflexivity|].
      destruct (String.eqb_spec "video" x) as [<-|n2]; [reflexivity|].
      destruct (String.eqb_spec "native" x) as [<-|n3]; [reflexivity|].
      destruct (String.eqb_spec "nvidia_wmi_ec" x) as [<-|n4]; [reflexivity|].
      destruct (String.eqb_spec "none" x) as [<-|n5]; [reflexivity|].
      cbn [find spec_cmdline_tokens fst].
      rewrite (proj2 (String.eqb_neq _ _) n1), (proj2 (String.eqb_neq _ _) n2),
        (proj2 (String.eqb_neq _ _) n3), (proj2 (String.eqb_neq _ _) n4),
        (proj2 (String.eqb_neq _ _) n5).
      reflexivity. }
  split; [apply G | apply (G initial_state)].
Qed.

(** A Dell whose product name string contains both the "Vostro 15 3535"
    (force native) and the later "XPS L421X" (force video) patterns. *)
Definition dell_identity (f : dmi_field) : option string :=
  match f with
  | DMI_SYS_VENDOR => Some "Dell Inc."
  | DMI_PRODUCT_NAME => Some "Vostro 15 3535 XPS L421X"
  | _ => None
  end.

Definition dell_platform : platform :=
  mk_platform "" dell_identity false [] true None false false false.

Definition no_rule : dmi_system_id := mk_dmi_system_id video_detect_force_vendor [].

(** C3 (refuted): for the identity above, two rules of the table match;
    the spec's first-match resolution gives Native (the earlier
    "Vostro 15 3535" rule) but [dmi_check_system] runs both callbacks and
    the later "XPS L421X" rule leaves Video, which the query returns. *)
Lemma quirk_first_match_counterexample :
  spec_quirk_resolve dell_platform video_detect_dmi_table = acpi_backlight_native /\
  snd (dmi_check_system dell_platform video_detect_dmi_table initial_state) = 2%nat /\
  acpi_backlight_dmi (fst (dmi_check_system dell_platform video_detect_dmi_table initial_state))
    = acpi_backlight_video /\
  fst (snd (acpi_video_get_backlight_type_full dell_platform false false initial_state))
    = acpi_backlight_video.
Proof. vm_compute; repeat split. Qed.

(** C3 (amended): every rule whose field predicates hold runs its action,
    in declaration order, and evaluation never stops early (the count is
    the number of matching rules); so the last-declared rule that commits
    determines the DMI override. *)
Theorem quirk_last_commit_wins (p : platform) (pre post : list dmi_system_id)
  (d : dmi_system_id) (t : acpi_backlight_type) (s : state)
  (Hm : dmi_matches p d = true) (Ha : rule_action p d = Some t)
  (Hpost : forallb (fun d' => negb (dmi_matches p d') || negb (rule_commits p d')) post = true) :
  acpi_backlight_dmi (fst (dmi_check_system p (pre ++ d :: post) s)) = t /\
  snd (dmi_check_system p (pre ++ d :: post) s) = length (filter (dmi_matches p) (pre ++ d :: post)).
Proof.
  rewrite dmi_check_system_fold; cbn [fst snd set_dmi acpi_backlight_dmi].
  split; [| reflexivity].
  rewrite fold_left_app; cbn [fold_left]; rewrite Hm, Ha.
  apply fold_last_commit; exact Hpost.
Qed.

Lemma quirk_last_commit_wins_witness :
  (dmi_matches dell_platform (nth 21 video_detect_dmi_table no_rule) = true /\
   rule_action dell_platform (nth 21 video_detect_dmi_table no_rule) = Some acpi_backlight_video /\
   forallb (fun d' => negb (dmi_matches dell_platform d') || negb (rule_commits dell_platform d'))
     (skipn 22 video_detect_dmi_table) = true) /\
  acpi_backlight_dmi (fst (dmi_check_system dell_platform
     (firstn 21 video_detect_dmi_table ++ nth 21 video_detect_dmi_table no_rule
        :: skipn 22 video_detect_dmi_table) initial_state)) = acpi_backlight_video /\
  snd (dmi_check_system dell_platform
     (firstn 21 video_detect_dmi_table ++ nth 21 video_detect_dmi_table no_rule
        :: skipn 22 video_detect_dmi_table) initial_state)
  = length (filter (dmi_matches dell_platform)
     (firstn 21 video_detect_dmi_table ++ nth 21 video_detect_dmi_table no_rule
        :: skipn 22 video_detect_dmi_table)).
Proof.
  split; [vm_compute; repeat split|].
  apply (quirk_last_commit_wins dell_platform (firstn 21 video_detect_dmi_table)
           (skipn 22 video_detect_dmi_table) (nth 21 video_detect_dmi_table no_rule)
           acpi_backlight_video initial_state);
    vm_compute; reflexivity.
Defined.

Definition win8_nocaps_platform : platform :=
  mk_platform "" no_dmi false [] true None true false false.

Definition legacy_platform : platform :=
  mk_platform "" no_dmi false [] true None false false false.

(** C4 (refuted): with no override, no vendor EC, no ACPI video
    capability and no native interface, the query falls through to step 6
    (None) or step 7 (Vendor) and still writes [true] to [*auto_detect]. *)
Lemma auto_detect_fallback_counterexample :
  snd (acpi_video_get_backlight_type_full win8_nocaps_platform false true initial_state)
    = (acpi_backlight_none, Some true) /\
  snd (acpi_video_get_backlight_type_full legacy_platform false true initial_state)
    = (acpi_backlight_vendor, Some true).
Proof. split; vm_compute; reflexivity. Qed.

(** C4 (amended): when the out-parameter is given, it receives [true]
    exactly when neither override is set and the vendor-EC case does not
    apply (steps 4 to 7, including the None and Vendor fallbacks), and
    [false] otherwise; without it nothing is written. *)
Theorem auto_detect_flag (p : platform) (native : bool) (s : state) :
  let s' := fst (acpi_video_get_backlight_type_full p native true s) in
  snd (snd (acpi_video_get_backlight_type_full p native true s)) =
    Some (bt_eqb (acpi_backlight_cmdline s') acpi_backlight_undef &&
          bt_eqb (acpi_backlight_dmi s') acpi_backlight_undef &&
          negb (nvidia_wmi_ec_present s')) /\
  snd (snd (acpi_video_get_backlight_type_full p native false s)) = None.
Proof.
  cbv zeta; unfold acpi_video_get_backlight_type_full.
  generalize (locked_region p native s); intro t.
  unfold decide_backlight.
  destruct (acpi_backlight_cmdline t) eqn:Ec, (acpi_backlight_dmi t) eqn:Ed,
    (nvidia_wmi_ec_present t) eqn:Ee; simpl;
    repeat match goal with |- context [if ?b then _ else _] => destruct b end;
    cbn [fst snd]; rewrite ?Ec, ?Ed, ?Ee; split; reflexivity.
Qed.

(** C5: [acpi_video_set_dmi_backlight_type p type] stores [type] in the
    DMI override, re-runs the query on that state, and calls
    [acpi_video_unregister_backlight] exactly when the re-evaluated result
    is not Video; once initialised, the stored override is [type]. *)
Theorem set_dmi_type_unregister (p : platform) (type : acpi_backlight_type) (s : state) :
  let q := acpi_video_get_backlight_type p (set_dmi s type) in
  acpi_video_set_dmi_backlight_type p type s = (fst q, negb (bt_eqb (snd q) acpi_backlight_video)) /\
  (snd (acpi_video_set_dmi_backlight_type p type s) = true <-> snd q <> acpi_backlight_video) /\
  (init_done s = true -> acpi_backlight_dmi (fst (acpi_video_set_dmi_backlight_type p type s)) = type).
Proof.
  cbv zeta.
  assert (E : acpi_video_set_dmi_backlight_type p type s =
    (fst (acpi_video_get_backlight_type p (set_dmi s type)),
     negb (bt_eqb (snd (acpi_video_get_backlight_type p (set_dmi s type))) acpi_backlight_video))).
  { unfold acpi_video_set_dmi_backlight_type.
    destruct (acpi_video_get_backlight_type p (set_dmi s type)); reflexivity. }
  split; [exact E|]; split.
  - rewrite E; cbn [snd].
    destruct (bt_eqb _ _) eqn:B; cbn [negb].
    + apply bt_eqb_spec in B; split; [discriminate | intros N; contradiction].
    + split; [intros _ N; apply bt_eqb_spec in N; congruence | reflexivity].
  - intros H.
    rewrite set_dmi_type_state, (locked_region_done p false (set_dmi s type) H).
    reflexivity.
Qed.

(** A Dell matching only the "Vostro 15 3535" (force native) rule. *)
Definition vostro_identity (f : dmi_field) : option string :=
  match f with
  | DMI_SYS_VENDOR => Some "Dell Inc."
  | DMI_PRODUCT_NAME => Some "Vostro 15 3535"
  | _ => None
  end.

Definition vostro_platform : platform :=
  mk_platform "" vostro_identity false [] true None false false false.

(** The state after one query on the Vostro: the quirk table has committed
    Native. *)
Definition vostro_booted : state := run vostro_platform [Query false false] initial_state.

(** C10 (refuted): called before the first query, setting the override to
    [Undefined] does not clear it: the query it triggers runs the quirk
    table, which sets Native, and the next query takes the DMI branch
    although the fall-through decision would be Vendor. *)
Lemma set_dmi_undef_counterexample :
  let s1 := fst (acpi_video_set_dmi_backlight_type vostro_platform acpi_backlight_undef
                   initial_state) in
  acpi_backlight_cmdline s1 = acpi_backlight_undef /\
  acpi_backlight_dmi s1 = acpi_backlight_native /\
  fst (snd (acpi_video_get_backlight_type_full vostro_platform false false s1))
    = acpi_backlight_native /\
  spec_precedence acpi_backlight_undef acpi_backlight_undef (nvidia_wmi_ec_present s1)
    (negb (Z.eqb (Z.land (video_caps s1) ACPI_VIDEO_BACKLIGHT) 0))
    (native_available s1) (prefer_native_over_acpi_video vostro_platform)
    (osi_is_win8 vostro_platform) = acpi_backlight_vendor.
Proof. vm_compute; repeat split. Qed.

(** C10 (amended): after initialisation, setting the override to
    [Undefined] clears it; it stays [Undefined] through any later queries,
    and with no command line override every such query skips the DMI
    branch and returns the vendor-EC / autodetection decision. *)
Theorem set_dmi_undef_after_init (p : platform) (s : state) (cs : list call)
  (native want_auto : bool)
  (Hinit : init_done s = true)
  (Hcmd : acpi_backlight_cmdline s = acpi_backlight_undef)
  (Hq : forallb is_query cs = true) :
  let s2 := run p cs (fst (acpi_video_set_dmi_backlight_type p acpi_backlight_undef s)) in
  acpi_backlight_dmi s2 = acpi_backlight_undef /\
  fst (snd (acpi_video_get_backlight_type_full p native want_auto s2)) =
  spec_precedence acpi_backlight_undef acpi_backlight_undef (nvidia_wmi_ec_present s2)
    (negb (Z.eqb (Z.land (video_caps s2) ACPI_VIDEO_BACKLIGHT) 0))
    (native_available s2 || native) (prefer_native_over_acpi_video p) (osi_is_win8 p).
Proof.
  cbv zeta.
  rewrite set_dmi_type_state,
    (locked_region_done p false (set_dmi s acpi_backlight_undef) Hinit).
  destruct (queries_keep_dmi p cs (set_dmi s acpi_backlight_undef) Hinit Hq) as (D & C & I).
  cbn [acpi_backlight_dmi acpi_backlight_cmdline set_dmi] in D, C.
  split; [exact D|].
  rewrite (query_precedence_done p native want_auto _ I), D, C, Hcmd.
  reflexivity.
Qed.

Lemma set_dmi_undef_after_init_witness :
  acpi_backlight_dmi vostro_booted = acpi_backlight_native /\
  (init_done vostro_booted = true /\
   acpi_backlight_cmdline vostro_booted = acpi_backlight_undef /\
   forallb is_query [Query false false] = true) /\
  let s2 := run vostro_platform [Query false false]
              (fst (acpi_video_set_dmi_backlight_type vostro_platform acpi_backlight_undef
                      vostro_booted)) in
  acpi_backlight_dmi s2 = acpi_backlight_undef /\
  fst (snd (acpi_video_get_backlight_type_full vostro_platform false false s2)) =
  spec_precedence acpi_backlight_undef acpi_backlight_undef (nvidia_wmi_ec_present s2)
    (negb (Z.eqb (Z.land (video_caps s2) ACPI_VIDEO_BACKLIGHT) 0))
    (native_available s2 || false) (prefer_native_over_acpi_video vostro_platform)
    (osi_is_win8 vostro_platform).
Proof.
  split; [vm_compute; reflexivity|].
  split; [repeat split; vm_compute; reflexivity|].
  apply (set_dmi_undef_after_init vostro_platform vostro_booted [Query false false] false false);
    vm_compute; reflexivity.
Defined.

(** ** Further properties of video_detect.c *)

(** What one namespace node adds to [video_caps]. *)
Definition node_contribution (n : acpi_node) : Z :=
  if node_acpi_dev n && node_video_hid n && node_pci_dev n then node_video_caps n else 0.

Lemma find_video_lor (n : acpi_node) (cap : Z) :
  find_video n cap = Z.lor cap (node_contribution n).
Proof.
  unfold find_video, node_contribution.
  destruct (node_acpi_dev n), (node_video_hid n), (node_pci_dev n); cbn;
    rewrite ?Z.lor_0_r; reflexivity.
Qed.

(** The namespace walk ORs the capability bits of every video node backed
    by a PCI device into the accumulator: it visits every node, never
    clears a bit, and ignores nodes without an ACPI device, without the
    video HID or without a PCI device. *)
Theorem acpi_walk_namespace_lor (ns : list acpi_node) (cap : Z) :
  acpi_walk_namespace ns cap =
  Z.lor cap (fold_right (fun n acc => Z.lor (node_contribution n) acc) 0%Z ns).
Proof.
  unfold acpi_walk_namespace.
  revert cap; induction ns as [|n ns IH]; intros cap; cbn [fold_left fold_right].
  - now rewrite Z.lor_0_r.
  - rewrite IH, find_video_lor, Z.lor_assoc; reflexivity.
Qed.

(** The result of the walk does not depend on the order of the nodes. *)
Theorem acpi_walk_namespace_perm (ns ns' : list acpi_node) (cap : Z)
  (Hperm : Permutation ns ns') :
  acpi_walk_namespace ns cap = acpi_walk_namespace ns' cap.
Proof.
  rewrite !acpi_walk_namespace_lor; f_equal.
  induction Hperm; cbn [fold_right]; try congruence.
  rewrite !Z.lor_assoc, (Z.lor_comm (node_contribution y)); reflexivity.
Qed.

Lemma acpi_walk_namespace_perm_witness :
  Permutation [mk_acpi_node true true true 8; mk_acpi_node true true false 1]
                          [mk_acpi_node true true false 1; mk_acpi_node true true true 8] /\
  acpi_walk_namespace [mk_acpi_node true true true 8; mk_acpi_node true true false 1] 0%Z =
  acpi_walk_namespace [mk_acpi_node true true false 1; mk_acpi_node true true true 8] 0%Z.
Proof.
  split; [apply perm_swap|].
  apply acpi_walk_namespace_perm, perm_swap.
Defined.

Lemma prefix_append (n h : string) :
  String.prefix n h = true <-> exists b, h = String.append n b.
Proof.
  revert h; induction n as [|c n IH]; intros h; cbn.
  - split; [intros _; exists h; reflexivity | intros _; destruct h; reflexivity].
  - destruct h as [|c' h].
    + split; [discriminate | intros [b Hb]; discriminate Hb].
    + cbn [String.prefix]; destruct (Ascii.ascii_dec c c') as [<-|Hne].
      * rewrite IH; split; intros [b Hb]; exists b; [now rewrite Hb | now injection Hb].
      * split; [discriminate | intros [b Hb]; injection Hb; intros _ E; congruence].
Qed.

Lemma strstr_substring (hay needle : string) :
  strstr hay needle = true <->
  exists a b, hay = String.append a (String.append needle b).
Proof.
  induction hay as [|c hay IH]; cbn [strstr].
  - destruct (String.prefix needle "") eqn:E.
    + split; [intros _ | reflexivity].
      apply prefix_append in E as [b Hb]; exists "", b; exact Hb.
    + split; [discriminate|].
      intros [a [b Hab]].
      destruct a; cbn in Hab; [| discriminate Hab].
      assert (P : String.prefix needle "" = true) by (apply prefix_append; exists b; exact Hab).
      congruence.
  - destruct (String.prefix needle (String c hay)) eqn:E.
    + split; [intros _ | reflexivity].
      apply prefix_append in E as [b Hb]; exists "", b; exact Hb.
    + rewrite IH; split.
      * intros [a [b Hab]]; exists (String c a), b; cbn; now rewrite Hab.
      * intros [a [b Hab]]; destruct a as [|c' a]; cbn in Hab.
        -- assert (P : String.prefix needle (String c hay) = true)
             by (apply prefix_append; exists b; exact Hab).
           congruence.
        -- injection Hab; intros Hh _; exists a, b; exact Hh.
Qed.

(** A field predicate of the quirk table holds exactly when the identity
    string is present and, for [DMI_MATCH], contains the pattern, or, for
    [DMI_EXACT_MATCH], equals it; a missing identity string never
    matches. *)
Theorem dmi_field_match_semantics (p : platform) (f : dmi_field) (pat : string) :
  (dmi_strmatch_ok p (DMI_MATCH f pat) = true <->
   exists v a b, dmi_ident p f = Some v /\ v = String.append a (String.append pat b)) /\
  (dmi_strmatch_ok p (DMI_EXACT_MATCH f pat) = true <-> dmi_ident p f = Some pat).
Proof.
  unfold dmi_strmatch_ok, DMI_MATCH, DMI_EXACT_MATCH; cbn [slot substr exact_match].
  destruct (dmi_ident p f) as [v|]; split.
  - rewrite strstr_substring; split.
    + intros [a [b H]]; exists v, a, b; auto.
    + intros [v' [a [b [E H]]]]; injection E as <-; eauto.
  - rewrite String.eqb_eq; split; [intros ->; reflexivity | intros E; injection E; auto].
  - split; [discriminate | intros [v' [a [b [E _]]]]; discriminate E].
  - split; discriminate.
Qed.

Lemma table_rules_nonempty :
  forallb (fun d => match matches d with [] => false | _ => true end)
    video_detect_dmi_table = true.
Proof. vm_compute; reflexivity. Qed.

Lemma fold_no_match (p : platform) (l : list dmi_system_id) (acc : acpi_backlight_type) :
  forallb (fun d => negb (dmi_matches p d)) l = true ->
  fold_left (fun acc d =>
               if dmi_matches p d then
                 match rule_action p d with Some t => t | None => acc end
               else acc) l acc = acc /\
  filter (dmi_matches p) l = [].
Proof.
  revert acc; induction l as [|d l IH]; intros acc H; [split; reflexivity|].
  cbn [forallb] in H; apply andb_true_iff in H as [Hd Hl].
  cbn [fold_left filter].
  destruct (dmi_matches p d); [discriminate Hd|].
  apply IH; exact Hl.
Qed.

Lemma no_identity_no_match (p : platform) (l : list dmi_system_id) :
  (forall f, dmi_ident p f = None) ->
  forallb (fun d => match matches d with [] => false | _ => true end) l = true ->
  forallb (fun d => negb (dmi_matches p d)) l = true.
Proof.
  intros Hnone; induction l as [|d l IH]; intros H; [reflexivity|].
  cbn [forallb] in *; apply andb_true_iff in H as [Hd Hl].
  rewrite (IH Hl), andb_true_r.
  unfold dmi_matches; destruct (matches d) as [|m ms]; [discriminate Hd|].
  cbn [forallb]; unfold dmi_strmatch_ok; rewrite Hnone; reflexivity.
Qed.

(** Every rule of the quirk table tests at least one identity field, so on
    a system that reports no DMI strings at all no rule matches: the
    table walk leaves the state unchanged and counts no match. *)
Theorem quirk_table_needs_identity (p : platform) (s : state)
  (Hnone : forall f, dmi_ident p f = None) :
  dmi_check_system p video_detect_dmi_table s = (s, 0%nat).
Proof.
  pose proof (no_identity_no_match p _ Hnone table_rules_nonempty) as H.
  rewrite dmi_check_system_fold.
  destruct (fold_no_match p _ (acpi_backlight_dmi s) H) as [F L].
  rewrite F, L; destruct s; reflexivity.
Qed.

Lemma quirk_table_needs_identity_witness :
  (forall f, dmi_ident win8_platform f = None) /\
  dmi_check_system win8_platform video_detect_dmi_table booted_state = (booted_state, 0%nat).
Proof.
  split; [intros f; reflexivity|].
  apply quirk_table_needs_identity; intros f; reflexivity.
Defined.



Lemma parse_cmdline_token_eq (p : platform) (s : state) :
  acpi_backlight_cmdline (acpi_video_parse_cmdline p s) =
    match spec_cmdline_token (acpi_video_backlight_string p) with
    | Some t => t
    | None => acpi_backlight_cmdline s
    end.
Proof.
  unfold acpi_video_parse_cmdline, spec_cmdline_token, streq.
  generalize (acpi_video_backlight_string p); intros x.
  destruct (String.eqb_spec "vendor" x) as [<-|n1]; [reflexivity|].
  destruct (String.eqb_spec "video" x) as [<-|n2]; [reflexivity|].
  destruct (String.eqb_spec "native" x) as [<-|n3]; [reflexivity|].
  destruct (String.eqb_spec "nvidia_wmi_ec" x) as [<-|n4]; [reflexivity|].
  destruct (String.eqb_spec "none" x) as [<-|n5]; [reflexivity|].
  cbn [find spec_cmdline_tokens fst].
  rewrite (proj2 (String.eqb_neq _ _) n1), (proj2 (String.eqb_neq _ _) n2),
    (proj2 (String.eqb_neq _ _) n3), (proj2 (String.eqb_neq _ _) n4),
    (proj2 (String.eqb_neq _ _) n5).
  reflexivity.
Qed.

Lemma spec_cmdline_token_defined (str : string) (t : acpi_backlight_type) :
  spec_cmdline_token str = Some t -> t <> acpi_backlight_undef.
Proof.
  unfold spec_cmdline_token; cbn [spec_cmdline_tokens find].
  repeat match goal with |- context [if ?b then _ else _] => destruct b end;
    cbn; intros E; first [discriminate E | injection E as <-; discriminate].
Qed.

Lemma init_block_with_fields (table : list dmi_system_id) (p : platform) (s : state) :
  acpi_backlight_cmdline (init_block_with table p s)
    = acpi_backlight_cmdline (acpi_video_parse_cmdline p s) /\
  acpi_backlight_dmi (init_block_with table p s)
    = acpi_backlight_dmi (fst (dmi_check_system p table (acpi_video_parse_cmdline p s))) /\
  nvidia_wmi_ec_present (init_block_with table p s) = nvidia_wmi_ec_supported p.
Proof.
  unfold init_block_with.
  destruct (dmi_check_system_fields p table (acpi_video_parse_cmdline p s)) as (C & _).
  cbn zeta in C.
  cbn [set_init_done set_wmi_ec set_video_caps acpi_backlight_cmdline acpi_backlight_dmi
       nvidia_wmi_ec_present].
  rewrite C; auto.
Qed.

Lemma init_block_cmdline (p : platform) (s : state) :
  acpi_backlight_cmdline (init_block p s) = acpi_backlight_cmdline (acpi_video_parse_cmdline p s).
Proof. exact (proj1 (init_block_with_fields video_detect_dmi_table p s)). Qed.

Lemma locked_region_cmdline (p : platform) (native : bool) (s : state) :
  acpi_backlight_cmdline (locked_region p native s) =
  if init_done s then acpi_backlight_cmdline s
  else match spec_cmdline_token (acpi_video_backlight_string p) with
       | Some t => t
       | None => acpi_backlight_cmdline s
       end.
Proof.
  unfold locked_region.
  destruct (init_done s); cbn [negb].
  - destruct native; reflexivity.
  - rewrite <- parse_cmdline_token_eq, <- init_block_cmdline.
    generalize (init_block p s); intro t.
    destruct native; reflexivity.
Qed.

Lemma step_cmdline (p : platform) (c : call) (s : state) :
  acpi_backlight_cmdline (step p c s) =
  if init_done s then acpi_backlight_cmdline s
  else match spec_cmdline_token (acpi_video_backlight_string p) with
       | Some t => t
       | None => acpi_backlight_cmdline s
       end.
Proof.
  destruct c as [n w | t]; unfold step.
  - rewrite query_state; apply locked_region_cmdline.
  - rewrite set_dmi_type_state, locked_region_cmdline; reflexivity.
Qed.

Lemma decide_cmdline (p : platform) (t : state) :
  acpi_backlight_cmdline t <> acpi_backlight_undef ->
  fst (decide_backlight p t) = acpi_backlight_cmdline t.
Proof.
  intros H; unfold decide_backlight.
  destruct (acpi_backlight_cmdline t); [contradiction | reflexivity ..].
Qed.

(** A recognised [acpi_backlight=] token decides every query from boot on:
    whatever sequence of queries and runtime DMI overrides came before,
    the query returns the token's interface type. *)
Theorem cmdline_token_decides (p : platform) (t : acpi_backlight_type) (cs : list call)
  (native want_auto : bool)
  (Htok : spec_cmdline_token (acpi_video_backlight_string p) = Some t) :
  fst (snd (acpi_video_get_backlight_type_full p native want_auto (run p cs initial_state))) = t.
Proof.
  assert (Inv : forall cs s, (init_done s = true -> acpi_backlight_cmdline s = t) ->
                 init_done (run p cs s) = true -> acpi_backlight_cmdline (run p cs s) = t).
  { induction cs0 as [|c cs0 IH]; intros s0 H; cbn [run]; [exact H|].
    apply IH; intros _.
    rewrite step_cmdline, Htok.
    destruct (init_done s0) eqn:E; [now apply H | reflexivity]. }
  rewrite query_result.
  assert (Ct : acpi_backlight_cmdline (locked_region p native (run p cs initial_state)) = t).
  { rewrite locked_region_cmdline, Htok.
    destruct (init_done (run p cs initial_state)) eqn:E; [| reflexivity].
    apply Inv; [discriminate | exact E]. }
  rewrite decide_cmdline; [exact Ct|].
  rewrite Ct; exact (spec_cmdline_token_defined _ _ Htok).
Qed.

Definition none_cmdline_platform : platform :=
  mk_platform "none" no_dmi false [mk_acpi_node true true true 15] true None false false false.

Lemma cmdline_token_decides_witness :
  spec_cmdline_token (acpi_video_backlight_string none_cmdline_platform)
    = Some acpi_backlight_none /\
  fst (snd (acpi_video_get_backlight_type_full none_cmdline_platform true true
             (run none_cmdline_platform [Query false false; SetDmi acpi_backlight_video]
                initial_state))) = acpi_backlight_none.
Proof.
  split; [reflexivity|].
  apply cmdline_token_decides; reflexivity.
Defined.

Lemma nvidia_wmi_ec_supported_iff (p : platform) :
  nvidia_wmi_ec_supported p = true <->
  config_x86 p = true /\ wmi_brightness_source p = Some WMI_BRIGHTNESS_SOURCE_EC.
Proof.
  unfold nvidia_wmi_ec_supported.
  destruct (config_x86 p); [| split; [discriminate | intros [H _]; discriminate H]].
  destruct (wmi_brightness_source p) as [r|].
  - rewrite Z.eqb_eq; split; [intros ->; auto | intros [_ E]; injection E; auto].
  - split; [discriminate | intros [_ E]; discriminate E].
Qed.

Lemma init_block_dmi_no_match (p : platform) (s : state) :
  forallb (fun d => negb (dmi_matches p d)) video_detect_dmi_table = true ->
  acpi_backlight_dmi (init_block p s) = acpi_backlight_dmi s.
Proof.
  intros H.
  destruct (init_block_with_fields video_detect_dmi_table p s) as (_ & D & _).
  change (init_block_with video_detect_dmi_table p s) with (init_block p s) in D.
  rewrite D, dmi_check_system_fold; cbn [fst set_dmi acpi_backlight_dmi].
  rewrite (proj1 (fold_no_match p _ _ H)).
  destruct (parse_cmdline_fields p s) as (E & _); exact E.
Qed.

Lemma init_block_wmi_ec (p : platform) (s : state) :
  nvidia_wmi_ec_present (init_block p s) = nvidia_wmi_ec_supported p.
Proof. exact (proj2 (proj2 (init_block_with_fields video_detect_dmi_table p s))). Qed.

(** On a system without command line token and without quirk match, the
    first query after boot returns the NVIDIA WMI EC type exactly when the
    kernel is built for x86 and the WMI brightness-source query succeeds
    and reports the embedded controller; a failing or other answer never
    yields it. *)
Theorem first_query_wmi_ec (p : platform) (native want_auto : bool)
  (Htok : spec_cmdline_token (acpi_video_backlight_string p) = None)
  (Hnoq : forallb (fun d => negb (dmi_matches p d)) video_detect_dmi_table = true) :
  fst (snd (acpi_video_get_backlight_type_full p native want_auto initial_state))
    = acpi_backlight_nvidia_wmi_ec <->
  config_x86 p = true /\ wmi_brightness_source p = Some WMI_BRIGHTNESS_SOURCE_EC.
Proof.
  rewrite query_result; unfold locked_region.
  change (init_done initial_state) with false; cbn [negb].
  pose proof (init_block_cmdline p initial_state) as C.
  rewrite parse_cmdline_token_eq, Htok in C.
  pose proof (init_block_dmi_no_match p initial_state Hnoq) as D.
  pose proof (init_block_wmi_ec p initial_state) as E.
  rewrite <- nvidia_wmi_ec_supported_iff.
  revert C D E; generalize (init_block p initial_state); intros t C D E.
  destruct native; unfold decide_backlight; cbn [set_native acpi_backlight_cmdline
    acpi_backlight_dmi nvidia_wmi_ec_present native_available video_caps];
    rewrite C, D, E; cbn [initial_state acpi_backlight_cmdline acpi_backlight_dmi];
    simpl;
    destruct (nvidia_wmi_ec_supported p);
    repeat match goal with |- context [if ?b then _ else _] => destruct b end;
    cbn; intuition discriminate.
Qed.

Definition wmi_ec_platform : platform :=
  mk_platform "" no_dmi false [] true (Some WMI_BRIGHTNESS_SOURCE_EC) true false false.

Lemma first_query_wmi_ec_witness :
  (spec_cmdline_token (acpi_video_backlight_string wmi_ec_platform) = None /\
   forallb (fun d => negb (dmi_matches wmi_ec_platform d)) video_detect_dmi_table = true) /\
  (fst (snd (acpi_video_get_backlight_type_full wmi_ec_platform false false initial_state))
     = acpi_backlight_nvidia_wmi_ec <->
   config_x86 wmi_ec_platform = true /\
   wmi_brightness_source wmi_ec_platform = Some WMI_BRIGHTNESS_SOURCE_EC).
Proof.
  split; [split; vm_compute; reflexivity|].
  apply first_query_wmi_ec; vm_compute; reflexivity.
Defined.

Lemma set_dmi_type_eq (p : platform) (type : acpi_backlight_type) (s : state) :
  acpi_video_set_dmi_backlight_type p type s =
  (fst (acpi_video_get_backlight_type p (set_dmi s type)),
   negb (bt_eqb (snd (acpi_video_get_backlight_type p (set_dmi s type))) acpi_backlight_video)).
Proof.
  unfold acpi_video_set_dmi_backlight_type.
  destruct (acpi_video_get_backlight_type p (set_dmi s type)); reflexivity.
Qed.

Lemma get_wrapper_result (p : platform) (s : state) :
  snd (acpi_video_get_backlight_type p s)
  = fst (snd (acpi_video_get_backlight_type_full p false false s)).
Proof.
  unfold acpi_video_get_backlight_type.
  destruct (acpi_video_get_backlight_type_full p false false s) as [s' [r a]]; reflexivity.
Qed.

(** After initialisation and without a command line override, a runtime
    DMI override [type] other than [Undefined] takes effect at once: the
    acpi-video backlight is unregistered exactly when [type] is not Video,
    and every later query returns [type]. *)
Theorem set_dmi_override_effective (p : platform) (type : acpi_backlight_type) (s : state)
  (cs : list call) (native want_auto : bool)
  (Hinit : init_done s = true)
  (Hcmd : acpi_backlight_cmdline s = acpi_backlight_undef)
  (Htype : type <> acpi_backlight_undef)
  (Hq : forallb is_query cs = true) :
  snd (acpi_video_set_dmi_backlight_type p type s) = negb (bt_eqb type acpi_backlight_video) /\
  fst (snd (acpi_video_get_backlight_type_full p native want_auto
        (run p cs (fst (acpi_video_set_dmi_backlight_type p type s))))) = type.
Proof.
  assert (Hi : init_done (set_dmi s type) = true) by exact Hinit.
  split.
  - rewrite set_dmi_type_eq; cbn [snd].
    rewrite get_wrapper_result, (query_precedence_done p false false _ Hi).
    cbn [set_dmi acpi_backlight_cmdline acpi_backlight_dmi]; rewrite Hcmd.
    destruct type; [contradiction | reflexivity ..].
  - rewrite set_dmi_type_state, (locked_region_done p false _ Hi).
    destruct (queries_keep_dmi p cs (set_dmi s type) Hi Hq) as (D & C & I).
    rewrite (query_precedence_done p native want_auto _ I), D, C.
    cbn [set_dmi acpi_backlight_cmdline acpi_backlight_dmi]; rewrite Hcmd.
    destruct type; [contradiction | reflexivity ..].
Qed.

Lemma set_dmi_override_effective_witness :
  (init_done booted_state = true /\
   acpi_backlight_cmdline booted_state = acpi_backlight_undef /\
   acpi_backlight_vendor <> acpi_backlight_undef /\
   forallb is_query [Query true true] = true) /\
  snd (acpi_video_set_dmi_backlight_type win8_platform acpi_backlight_vendor booted_state)
    = negb (bt_eqb acpi_backlight_vendor acpi_backlight_video) /\
  fst (snd (acpi_video_get_backlight_type_full win8_platform false false
        (run win8_platform [Query true true]
           (fst (acpi_video_set_dmi_backlight_type win8_platform acpi_backlight_vendor
                   booted_state))))) = acpi_backlight_vendor.
Proof.
  split; [repeat split; discriminate|].
  apply set_dmi_override_effective; first [reflexivity | discriminate].
Defined.

Lemma set_dmi_type_after_set_dmi (p : platform) (t1 t2 : acpi_backlight_type) (s : state) :
  acpi_video_set_dmi_backlight_type p t2 (set_dmi s t1) = acpi_video_set_dmi_backlight_type p t2 s.
Proof.
  unfold acpi_video_set_dmi_backlight_type.
  change (set_dmi (set_dmi s t1) t2) with (set_dmi s t2).
  reflexivity.
Qed.

(** After initialisation, two runtime DMI overrides in a row have the
    effect of the second alone: same state, same unregister decision. *)
Theorem set_dmi_last_wins (p : platform) (t1 t2 : acpi_backlight_type) (s : state)
  (Hinit : init_done s = true) :
  acpi_video_set_dmi_backlight_type p t2 (fst (acpi_video_set_dmi_backlight_type p t1 s))
  = acpi_video_set_dmi_backlight_type p t2 s.
Proof.
  assert (Hi : init_done (set_dmi s t1) = true) by exact Hinit.
  rewrite set_dmi_type_state, (locked_region_done p false _ Hi).
  apply set_dmi_type_after_set_dmi.
Qed.

Lemma set_dmi_last_wins_witness :
  init_done booted_state = true /\
  acpi_video_set_dmi_backlight_type win8_platform acpi_backlight_video
    (fst (acpi_video_set_dmi_backlight_type win8_platform acpi_backlight_native booted_state))
  = acpi_video_set_dmi_backlight_type win8_platform acpi_backlight_video booted_state.
Proof.
  split; [reflexivity|].
  apply set_dmi_last_wins; reflexivity.
Defined.

(** A query that registers a native interface never falls back to the
    legacy Vendor or the None result by itself: its result is Video,
    Native, the NVIDIA WMI EC type, or one of the two overrides. *)
Theorem native_hint_excludes_fallbacks (p : platform) (want_auto : bool) (s : state) :
  let s' := fst (acpi_video_get_backlight_type_full p true want_auto s) in
  In (fst (snd (acpi_video_get_backlight_type_full p true want_auto s)))
     [acpi_backlight_video; acpi_backlight_native; acpi_backlight_nvidia_wmi_ec;
      acpi_backlight_cmdline s'; acpi_backlight_dmi s'].
Proof.
  cbv zeta; rewrite query_state, query_result.
  pose proof (locked_region_native p true s) as N; rewrite orb_true_r in N.
  revert N; generalize (locked_region p true s); intros t N.
  unfold decide_backlight.
  destruct (acpi_backlight_cmdline t) eqn:Ec; [| cbn; tauto ..].
  destruct (acpi_backlight_dmi t) eqn:Ed; [| cbn; tauto ..].
  simpl; destruct (nvidia_wmi_ec_present t); [cbn; tauto|].
  rewrite N; destruct (_ && _); cbn; tauto.
Qed.

(** * drivers/dax/hmem/hmem.c *)

Module Hmem.

Local Open Scope Z_scope.

(** [struct range] with [u64] bounds. *)
Record range : Set := mk_range { range_start : Z; range_end : Z }.

(** [range_len] (include/linux/range.h): [end - start + 1] in [u64]. *)
Definition range_len (r : range) : Z :=
  (range_end r - range_start r + 1) mod 2 ^ 64.

Record memregion_info : Set := mk_memregion_info {
  target_node : Z;
  mri_range : range
}.

Record platform_device : Set := mk_platform_device {
  pdev_id : Z;
  platform_data : memregion_info
}.

(** The arguments of [alloc_dax_region(dev, id, range, target_node, align, flags)]. *)
Record alloc_args : Set := mk_alloc_args {
  alloc_id : Z;
  alloc_range : range;
  alloc_target_node : Z;
  alloc_align : Z;
  alloc_flags : Z
}.

(** [struct dev_dax_data]; the region is an opaque handle. *)
Record dev_dax_data : Set := mk_dev_dax_data {
  dax_region : nat;
  data_id : Z;
  data_size : Z;
  memmap_on_memory : bool
}.

(** The calls the probe makes into the dax bus. *)
Inductive hmem_call : Set :=
| CallAllocDaxRegion (a : alloc_args)
| CallCreateDevDax (d : dev_dax_data).

(** The module parameter and the dax bus services: [alloc_dax_region]
    returns a region or NULL, [devm_create_dev_dax] a device or an
    [ERR_PTR] error code. *)
Record hmem_env : Type := mk_hmem_env {
  region_idle : bool;
  alloc_dax_region : alloc_args -> option nat;
  devm_create_dev_dax : dev_dax_data -> nat + Z
}.

(** [IORESOURCE_DAX_KMEM] (drivers/dax/bus.h), [PMD_SIZE] (x86-64),
    [ENOMEM]. *)
Definition IORESOURCE_DAX_KMEM : Z := Z.shiftl 1 1.
Definition PMD_SIZE : Z := 2 ^ 21.
Definition ENOMEM : Z := 12.

Definition PTR_ERR_OR_ZERO (r : nat + Z) : Z :=
  match r with inl _ => 0 | inr err => err end.

(** [dax_hmem_probe]: the return value and the calls made, in order. *)
Definition dax_hmem_probe (env : hmem_env) (pdev : platform_device) : Z * list hmem_call :=
  let flags := if region_idle env then 0 else IORESOURCE_DAX_KMEM in
  let mri := platform_data pdev in
  let a := mk_alloc_args (pdev_id pdev) (mri_range mri) (target_node mri) PMD_SIZE flags in
  match alloc_dax_region env a with
  | None => (- ENOMEM, [CallAllocDaxRegion a])
  | Some region =>
      let data := mk_dev_dax_data region (-1)
                    (if region_idle env then 0 else range_len (mri_range mri)) false in
      (PTR_ERR_OR_ZERO (devm_create_dev_dax env data),
       [CallAllocDaxRegion a; CallCreateDevDax data])
  end.

(** [dax_hmem_remove]: devm handles teardown. *)
Definition dax_hmem_remove (pdev : platform_device) : Z := 0.

(** Whether a call creates a device. *)
Definition creates_device (c : hmem_call) : bool :=
  match c with CallCreateDevDax _ => true | CallAllocDaxRegion _ => false end.



Definition sample_pdev : platform_device :=
  mk_platform_device 0 (mk_memregion_info 1 (mk_range 4096 8191)).


(** [region_idle] decides how the range is exposed: when set, the region
    is allocated without the kmem flag and the dax device is created with
    size 0; otherwise the region carries [IORESOURCE_DAX_KMEM] and the
    device spans the whole range.  In both cases the region is aligned to
    [PMD_SIZE], the device id is dynamic (-1), memmap_on_memory is off,
    and at most one device is created. *)
Theorem probe_region_idle (env : hmem_env) (pdev : platform_device) :
  Forall (fun c =>
    match c with
    | CallAllocDaxRegion a =>
        alloc_align a = PMD_SIZE /\
        alloc_flags a = (if region_idle env then 0 else IORESOURCE_DAX_KMEM)
    | CallCreateDevDax d =>
        data_id d = -1 /\ memmap_on_memory d = false /\
        data_size d = (if region_idle env then 0
                       else range_len (mri_range (platform_data pdev)))
    end) (snd (dax_hmem_probe env pdev)) /\
  (length (filter creates_device (snd (dax_hmem_probe env pdev))) <= 1)%nat.
Proof.
  unfold dax_hmem_probe.
  destruct (alloc_dax_region env _) as [region|]; cbn [snd];
    (split; [repeat constructor | cbn; lia]).
Qed.

(** If the dax bus reports errors as negative codes, the probe returns 0
    on success and a negative code on failure, never a positive value;
    [dax_hmem_remove] always succeeds. *)
Theorem probe_result_nonpositive (env : hmem_env) (pdev : platform_device)
  (Herr : forall d err, devm_create_dev_dax env d = inr err -> err < 0) :
  fst (dax_hmem_probe env pdev) <= 0 /\ dax_hmem_remove pdev = 0.
Proof.
  split; [| reflexivity].
  unfold dax_hmem_probe.
  destruct (alloc_dax_region env _) as [region|]; cbn [fst]; [| unfold ENOMEM; lia].
  unfold PTR_ERR_OR_ZERO.
  destruct (devm_create_dev_dax env _) as [dev|err] eqn:E; [lia|].
  apply Herr in E; lia.
Qed.

Definition error_env : hmem_env :=
  mk_hmem_env true (fun _ => Some 3%nat) (fun _ => inr (-22)).

Lemma probe_result_nonpositive_witness :
  (forall d err, devm_create_dev_dax error_env d = inr err -> err < 0) /\
  fst (dax_hmem_probe error_env sample_pdev) <= 0 /\ dax_hmem_remove sample_pdev = 0.
Proof.
  split.
  - intros d err E; cbn in E; injection E as <-; lia.
  - apply probe_result_nonpositive.
    intros d err E; cbn in E; injection E as <-; lia.
Defined.

End Hmem.
